(** * Distgit population of [oit/packages/image.py]

    A shallow embedding of [ImageMetadata.source_path] and
    [ImageMetadata.populate_distgit_dir], with the part of the file system
    and of the Python runtime they act on, and the properties of the
    repository's specification stated over it. *)

From Stdlib Require Import String Ascii List Bool.
From stdpp Require Import base option list strings gmap.

Local Open Scope string_scope.

(** ** Exceptions *)

(** The error numbers the file-system calls of this module can fail with. *)
Inductive errno : Set :=
| ENOENT      (* no such file or directory *)
| ENOTDIR     (* not a directory *)
| EISDIR      (* is a directory *)
| ENOTEMPTY   (* directory not empty *)
| EBUSY.      (* device or resource busy *)

(** Python exceptions.  [IOError] is what [source_path] raises itself,
    [OSError] is what [os] and [shutil] raise, and [FilesystemError] is the
    failure of the helpers of [common.py], as the specification names it. *)
Inductive exn : Set :=
| IOError (msg : string)
| OSError (code : errno) (filename : string)
| FilesystemError (msg : string).

Inductive outcome (A : Type) : Type :=
| Ok (a : A)
| Raise (e : exn).
Arguments Ok {A} a.
Arguments Raise {A} e.

(** ** The file system *)

(** A directory entry is a regular file with its content or a directory
    with its entries.  A directory is the list of its named entries, in the
    order [os.listdir] reports them; names are single path components. *)
#[warnings="-register-all"]
Inductive node : Set :=
| File (content : string)
| Dir (entries : list (string * node)).

Abbreviation dir := (list (string * node)).

(** [cwd] is the content of the distgit working directory, which
    [with Dir(self.distgit_dir)] makes the current directory; [dirs] gives
    the content of the directories outside of it by path ([None] where the
    path is not an existing directory).  The two are apart: a path of
    [dirs] is not a path into the working directory, so that what is
    removed from the working directory stays in [dirs].  What is said of a
    source directory is said of the file system in the state in which the
    program reads it. *)
Record filesystem : Type := mkFS {
  cwd : dir;
  dirs : string -> option dir
}.

Definition set_cwd (d : dir) (fs : filesystem) : filesystem :=
  {| cwd := d; dirs := dirs fs |}.

Fixpoint dir_lookup (n : string) (d : dir) : option node :=
  match d with
  | [] => None
  | (m, x) :: d' => if String.eqb n m then Some x else dir_lookup n d'
  end.

Fixpoint dir_delete (n : string) (d : dir) : dir :=
  match d with
  | [] => []
  | (m, x) :: d' =>
      if String.eqb n m then dir_delete n d' else (m, x) :: dir_delete n d'
  end.

(** Writing an entry replaces the entry of that name where there is one and
    adds the entry otherwise. *)
Fixpoint dir_insert (n : string) (x : node) (d : dir) : dir :=
  match d with
  | [] => [(n, x)]
  | (m, y) :: d' =>
      if String.eqb n m then (m, x) :: d' else (m, y) :: dir_insert n x d'
  end.

(** A directory has no two entries of the same name. *)
Definition wf_dir (d : dir) : Prop := List.NoDup (List.map fst d).

(** ** Computations: state and exceptions *)

(** A computation runs on a file system and ends normally with a value or
    with a raised exception, in both cases with the file system as it has
    left it. *)
Definition M (A : Type) : Type := filesystem -> outcome A * filesystem.

Global Instance M_ret : MRet M := fun A a fs => (Ok a, fs).

Global Instance M_bind : MBind M := fun A B f m fs =>
  match m fs with
  | (Ok a, fs') => f a fs'
  | (Raise e, fs') => (Raise e, fs')
  end.

Definition raise {A : Type} (e : exn) : M A := fun fs => (Raise e, fs).

Definition pass : M unit := mret tt.

(** [for x in l: body(x)] *)
Fixpoint for_each {A : Type} (l : list A) (body : A -> M unit) : M unit :=
  match l with
  | [] => pass
  | x :: l' => body x ;; for_each l' body
  end.

(** ** The calls of [os], [os.path] and [shutil] *)

Definition startswith (s p : string) : bool := String.prefix p s.

Definition endswith (s p : string) : bool :=
  String.prefix (String.rev p) (String.rev s).

(** [os.path.join(a, b)] of [posixpath]. *)
Definition os_path_join (a b : string) : string :=
  if startswith b "/" then b
  else if String.eqb a "" || endswith a "/" then a +:+ b
  else a +:+ "/" +:+ b.

(** [os.path.isdir(path)] for a path outside the working directory. *)
Definition os_path_isdir (path : string) : M bool :=
  fun fs => (Ok (bool_decide (is_Some (dirs fs path))), fs).

(** [os.listdir(".")] *)
Definition os_listdir : M (list string) :=
  fun fs => (Ok (List.map fst (cwd fs)), fs).

(** [os.path.isfile(name)] *)
Definition os_path_isfile (name : string) : M bool :=
  fun fs =>
    match dir_lookup name (cwd fs) with
    | Some (File _) => (Ok true, fs)
    | _ => (Ok false, fs)
    end.

(** [os.remove(name)]: unlinks a regular file. *)
Definition os_remove (name : string) : M unit :=
  fun fs =>
    match dir_lookup name (cwd fs) with
    | Some (File _) => (Ok tt, set_cwd (dir_delete name (cwd fs)) fs)
    | Some (Dir _) => (Raise (OSError EISDIR name), fs)
    | None => (Raise (OSError ENOENT name), fs)
    end.

(** [shutil.rmtree(name)]: lists the directory [name] and removes it with
    all that is below it; on what is not a directory the listing fails and
    the error is raised again ([ignore_errors] is false). *)
Definition shutil_rmtree (name : string) : M unit :=
  fun fs =>
    match dir_lookup name (cwd fs) with
    | Some (Dir _) => (Ok tt, set_cwd (dir_delete name (cwd fs)) fs)
    | Some (File _) => (Raise (OSError ENOTDIR name), fs)
    | None => (Raise (OSError ENOENT name), fs)
    end.

(** *** Paths into the working directory *)

(** The components of a path: the parts between the slashes. *)
Fixpoint split_slash (s : string) : list string :=
  match s with
  | EmptyString => [EmptyString]
  | String c s' =>
      if Ascii.eqb c "/" then EmptyString :: split_slash s'
      else
        match split_slash s' with
        | [] => [String c EmptyString]
        | h :: t => String c h :: t
        end
  end.

(** The node a list of names leads to, from the node [x] down. *)
Fixpoint node_at (p : list string) (x : node) : option node :=
  match p with
  | [] => Some x
  | n :: p' =>
      match x with
      | Dir es =>
          match dir_lookup n es with
          | Some y => node_at p' y
          | None => None
          end
      | File _ => None
      end
  end.

Definition path_lookup (p : list string) (d : dir) : option node :=
  node_at p (Dir d).

(** The directory [d] without what the list of names [p] leads to. *)
Fixpoint path_delete (p : list string) (d : dir) : dir :=
  match p with
  | [] => d
  | n :: p' =>
      match p' with
      | [] => dir_delete n d
      | _ :: _ =>
          match dir_lookup n d with
          | Some (Dir es) => dir_insert n (Dir (path_delete p' es)) d
          | _ => d
          end
      end
  end.

(** What the resolution of a path comes to: the names that lead to a node
    of the working directory and the node, or the reason why there is
    none.  [Outside] is a path that leaves the working directory. *)
Inductive resolution : Set :=
| Found (p : list string) (x : node)
| Missing
| NotADirectory
| Busy
| Outside.

(** Follows the components [comps], all of which name directories, from
    the directory the names [cur] lead to: [.] stays, [..] goes up. *)
Fixpoint walk (comps : list string) (cur : list string) (root : dir)
  : resolution :=
  match comps with
  | [] =>
      match path_lookup cur root with
      | Some x => Found cur x
      | None => Missing
      end
  | c :: rest =>
      if String.eqb c "." then walk rest cur root
      else if String.eqb c ".." then
        match cur with
        | [] => Outside
        | _ :: _ => walk rest (List.removelast cur) root
        end
      else
        match path_lookup (cur ++ [c]) root with
        | Some (Dir _) => walk rest (cur ++ [c]) root
        | Some (File _) => NotADirectory
        | None => Missing
        end
  end.

(** How [rename] finds its source [src] in the working directory [root],
    as Linux does.  The name of an entry is found as it is: the names of
    entries are single components.  Of another path, the components but
    the last are followed through directories; the last must not be [.]
    or [..], must name something, and something that is a directory when
    a slash ends the path. *)
Definition rename_source (src : string) (root : dir) : resolution :=
  match dir_lookup src root with
  | Some x => Found [src] x
  | None =>
      if String.eqb src "" then Missing
      else if startswith src "/" then Outside
      else
        let comps :=
          List.filter (fun c => negb (String.eqb c "")) (split_slash src) in
        match walk (List.removelast comps) [] root with
        | Found parent _ =>
            let c := List.last comps "" in
            if String.eqb c "." || String.eqb c ".." then Busy
            else
              match path_lookup (parent ++ [c]) root with
              | None => Missing
              | Some (File content) =>
                  if endswith src "/" then NotADirectory
                  else Found (parent ++ [c]) (File content)
              | Some (Dir es) => Found (parent ++ [c]) (Dir es)
              end
        | failure => failure
        end
  end.

(** [os.rename(src, dst)], the [rename] of POSIX, for a source path [src]
    and the name [dst] of an entry of the working directory: a file takes
    the place of a file, a directory that of an empty directory.  No file
    outside of the working directory is known: a source path that leaves
    it finds nothing. *)
Definition os_rename (src dst : string) : M unit :=
  fun fs =>
    let d := cwd fs in
    match rename_source src d with
    | Found p x =>
        if bool_decide (p = [dst]) then (Ok tt, fs)
        else
          let moved := set_cwd (dir_insert dst x (path_delete p d)) fs in
          match x, dir_lookup dst d with
          | _, None => (Ok tt, moved)
          | File _, Some (File _) => (Ok tt, moved)
          | File _, Some (Dir _) => (Raise (OSError EISDIR dst), fs)
          | Dir _, Some (File _) => (Raise (OSError ENOTDIR dst), fs)
          | Dir _, Some (Dir []) => (Ok tt, moved)
          | Dir _, Some (Dir (_ :: _)) => (Raise (OSError ENOTEMPTY dst), fs)
          end
    | Missing => (Raise (OSError ENOENT src), fs)
    | NotADirectory => (Raise (OSError ENOTDIR src), fs)
    | Busy => (Raise (OSError EBUSY src), fs)
    | Outside => (Raise (OSError ENOENT src), fs)
    end.

(** ** Configuration and metadata *)

(** The [content.source] section of an image's [config.yml].  An attribute
    the configuration does not define reads as [Missing] in [Model]; it is
    [None] here. *)
Record SourceConfig : Set := {
  alias : option string;
  path : option string;
  dockerfile : option string
}.

Record ContentConfig : Set := { source : option SourceConfig }.

Record Config : Set := { content : option ContentConfig }.

(** [config.content.source]: an attribute of [Missing] is [Missing]. *)
Definition content_source (c : Config) : option SourceConfig :=
  content c ≫= source.

Record Runtime : Type := { source_alias : gmap string string }.

Record ImageMetadata : Type := {
  runtime : Runtime;
  dir_ : string;          (* [self.dir] *)
  name : string;
  config : Config;
  distgit_dir : string
}.

(** ** The helpers of [common.py] *)

(** Modelled from the spec: [assert_dir] of [common.py], which is not part
    of the sources at hand.  It fails with a [FilesystemError] when the path
    is not an existing directory, and returns otherwise. *)
Definition assert_dir (path msg : string) : M unit :=
  isdir ← os_path_isdir path;
  if isdir : bool then pass else raise (FilesystemError msg).

(** Modelled from the spec: the step of [recursive_overwrite] of
    [common.py] on one entry.  Copies the source entry [x] to the name [n]
    of the destination directory [d]: a file is copied over the file of that name, a directory
    is created if absent and its entries are copied into it one by one.
    Gives the destination as the copy has left it, with the failure that
    stopped it, if any. *)
Fixpoint copy_entry (n : string) (x : node) (d : dir) {struct x}
  : outcome unit * dir :=
  match x with
  | File c =>
      match dir_lookup n d with
      | Some (Dir _) =>
          (Raise (FilesystemError ("cannot overwrite directory: " +:+ n)), d)
      | _ => (Ok tt, dir_insert n (File c) d)
      end
  | Dir sub =>
      match dir_lookup n d with
      | Some (File _) =>
          (Raise (FilesystemError ("cannot create directory: " +:+ n)), d)
      | o =>
          let below := match o with Some (Dir ds) => ds | _ => [] end in
          let (r, below') :=
            (fix copy_all (es : dir) (b : dir) : outcome unit * dir :=
               match es with
               | [] => (Ok tt, b)
               | (m, y) :: es' =>
                   match copy_entry m y b with
                   | (Ok _, b') => copy_all es' b'
                   | (Raise e, b') => (Raise e, b')
                   end
               end) sub below in
          (r, dir_insert n (Dir below') d)
      end
  end.

(** Modelled from the spec: the loop of [recursive_overwrite] of
    [common.py] over the entries [es] of a source directory, copied into
    [d] in order. *)
Fixpoint copy_entries (es : dir) (d : dir) : outcome unit * dir :=
  match es with
  | [] => (Ok tt, d)
  | (n, x) :: es' =>
      match copy_entry n x d with
      | (Ok _, d') => copy_entries es' d'
      | (Raise e, d') => (Raise e, d')
      end
  end.

(** Modelled from the spec: [recursive_overwrite] of [common.py], which is
    not part of the sources at hand.  A full tree merge-copy: for each
    source entry, a directory is created at the destination if absent and
    recursed into, a file is copied and overwrites the file at the
    destination.  [dest] is the distgit directory, which is the working
    directory when [populate_distgit_dir] calls it.  Where a file is in the
    way of a directory, or a directory in the way of a file, the copy
    fails. *)
Definition recursive_overwrite (src dest : string) : M unit :=
  fun fs =>
    match dirs fs src with
    | None => (Raise (FilesystemError ("not a directory: " +:+ src)), fs)
    | Some es =>
        let (r, d') := copy_entries es (cwd fs) in (r, set_cwd d' fs)
    end.

(** ** [ImageMetadata.source_path] *)

(** Returns the directory containing the source which should be used to
    populate distgit. *)
Definition source_path (self : ImageMetadata) : M string :=
  match content_source (config self) ≫= alias with
  | None =>
      raise (IOError ("Can't find source alias in image config: "
                        +:+ dir_ self))
  | Some alias =>
      match source_alias (runtime self) !! alias with
      | None =>
          raise (IOError ("Required source alias has not been registered ["
                            +:+ alias +:+ "] for image config: "
                            +:+ dir_ self))
      | Some source_root =>
          let sub_path := content_source (config self) ≫= path in
          let path :=
            match sub_path with
            | Some sub_path => os_path_join source_root sub_path
            | None => source_root
            end in
          assert_dir path ("Unable to find path within source [" +:+ path
                             +:+ "] for config: " +:+ dir_ self) ;;
          mret path
      end
  end.

(** ** [ImageMetadata.populate_distgit_dir] *)

(** The body of the first loop: what becomes of one entry of the distgit
    directory. *)
Definition clean_entry (ent : string) : M unit :=
  (* Do not delete anything that is hidden:
     protects .oit, .gitignore, others *)
  if startswith ent "." then pass
  (* Skip special files that aren't hidden *)
  else if bool_decide (ent ∈ ["additional-tags"]) then pass
  (* Otherwise, clean up the entry *)
  else shutil_rmtree ent.

(** Clean up any files not special to the distgit repo. *)
Definition selective_clean : M unit :=
  ents ← os_listdir;
  for_each ents clean_entry.

(** Copy all files and overwrite where necessary.  The argument
    [self.source_path()] is evaluated here, after the clean. *)
Definition copy_source (self : ImageMetadata) : M unit :=
  src ← source_path self;
  recursive_overwrite src (distgit_dir self).

(** See if the config is telling us a file other than "Dockerfile" defines
    the distgit image content. *)
Definition normalize_dockerfile (self : ImageMetadata) : M unit :=
  let dockerfile_name := content_source (config self) ≫= dockerfile in
  match dockerfile_name with
  | Some dockerfile_name =>
      if negb (String.eqb dockerfile_name "Dockerfile") then
        (* Does a non-distgit Dockerfile already exists from copying
           source; remove if so *)
        isfile ← os_path_isfile "Dockerfile";
        (if isfile : bool then os_remove "Dockerfile" else pass) ;;
        (* Rename our distgit source Dockerfile appropriately *)
        os_rename dockerfile_name "Dockerilfe"
      else pass
  | None => pass
  end.

(** The body of the last loop.  [__name__] is the name the module runs
    under: ["__main__"] for a script, the module's own name when it is
    imported. *)
Definition stray_entry (__name__ : string) (ent : string) : M unit :=
  if String.eqb __name__ "__main__" then
    if startswith ent "Dockerfile." then os_remove ent else pass
  else pass.

(** Clean up any extraneous Dockerfile.* that might be distractions
    (e.g. Dockerfile.centos). *)
Definition stray_cleanup (__name__ : string) : M unit :=
  ents ← os_listdir;
  for_each ents (stray_entry __name__).

Definition populate_distgit_dir (__name__ : string) (self : ImageMetadata)
  : M unit :=
  (* with Dir(self.distgit_dir): *)
  (* If content.source is defined, pull in content from local source
     directory *)
  match content_source (config self) with
  | Some _ =>
      selective_clean ;;
      copy_source self ;;
      normalize_dockerfile self ;;
      stray_cleanup __name__
  | None => pass
  end.

(** ** Sample images and file systems *)

Definition sample_image (a p df : option string) : ImageMetadata :=
  {| runtime := {| source_alias := {[ "app" := "/src/app" ]} |};
     dir_ := "/images/app";
     name := "app";
     config :=
       {| content :=
            Some {| source :=
                      Some {| alias := a; path := p; dockerfile := df |} |} |};
     distgit_dir := "/distgits/app" |}.

(** An image whose configuration has no [content.source]. *)
Definition plain_image : ImageMetadata :=
  {| runtime := {| source_alias := {[ "app" := "/src/app" ]} |};
     dir_ := "/images/app";
     name := "app";
     config := {| content := Some {| source := None |} |};
     distgit_dir := "/distgits/app" |}.

(** The file system whose only directory outside the distgit directory is
    [/src/app], with the entries [es]. *)
Definition source_at (es : dir) : string -> option dir :=
  fun p => if String.eqb p "/src/app" then Some es else None.

Definition git_meta : node := Dir [("HEAD", File "ref: refs/heads/master")].

(** A distgit clone with an old file, and a source with a new one. *)
Definition fs_old_file : filesystem :=
  {| cwd := [(".git", git_meta); (".gitignore", File "*.pyc");
             ("additional-tags", File "latest"); ("old-file.txt", File "old")];
     dirs := source_at [("new-file.txt", File "new")] |}.

(** A fresh distgit clone, and a source with one file. *)
Definition fs_new_file : filesystem :=
  {| cwd := [(".git", git_meta)];
     dirs := source_at [("new-file.txt", File "new")] |}.

(** A fresh distgit clone, and a source with two per-distro build files. *)
Definition fs_rhel : filesystem :=
  {| cwd := [(".git", git_meta)];
     dirs := source_at [("Dockerfile.rhel", File "FROM rhel7");
                        ("Dockerfile.centos", File "FROM centos7")] |}.


(** A fresh distgit clone, and a source with a directory and a file. *)
Definition fs_docs : filesystem :=
  {| cwd := [(".git", git_meta)];
     dirs := source_at [("docs", Dir [("README", File "read me")]);
                        ("new-file.txt", File "new")] |}.

(** A source with a sub-directory that is a directory of its own. *)
Definition fs_sub : filesystem :=
  {| cwd := [(".git", git_meta)];
     dirs := fun p =>
       if String.eqb p "/src/app" then Some [("sub", Dir [])]
       else if String.eqb p "/src/app/sub" then Some []
       else None |}.

(** The image whose source is the alias [app]. *)
Definition image_app : ImageMetadata := sample_image (Some "app") None None.

(** The image whose build file is [Dockerfile.rhel] of the alias [app]. *)
Definition image_rhel : ImageMetadata :=
  sample_image (Some "app") None (Some "Dockerfile.rhel").

(** ** [ImageMetadata.__init__]: the lines of the configuration *)

Definition LF : ascii := "010"%char.
Definition CR : ascii := "013"%char.

(** The characters [str.rstrip()] of Python 2 strips: space, tab, line
    feed, vertical tab, form feed and carriage return. *)
Definition is_space (c : ascii) : bool :=
  existsb (Ascii.eqb c)
    [" "%char; "009"%char; "010"%char; "011"%char; "012"%char; "013"%char].

Fixpoint all_space (s : string) : bool :=
  match s with
  | EmptyString => true
  | String c s' => is_space c && all_space s'
  end.

(** [s.rstrip()] *)
Fixpoint rstrip (s : string) : string :=
  match s with
  | EmptyString => EmptyString
  | String c s' =>
      let r := rstrip s' in
      if String.eqb r "" && is_space c then EmptyString else String c r
  end.

(** The text [__init__] hands to [yaml.load]: the global lines as they
    are, then the lines of [config.yml] as [f.readlines()] gives them, each
    stripped on the right, joined with line feeds. *)
Definition config_yml_content (global_yaml_lines : list string)
    (lines : list string) : string :=
  let config_yml_lines :=
    (global_yaml_lines ++ List.map rstrip lines)%list in
  String.concat (String LF "") config_yml_lines.

(** ** Entries the selective clean keeps *)

(** The entries the first loop of [populate_distgit_dir] skips: the hidden
    ones and [additional-tags]. *)
Definition protected (ent : string) : bool :=
  startswith ent "." || bool_decide (ent ∈ ["additional-tags"]).

(** The file system once a regular file named [Dockerfile] is out of the
    way of the configured build file. *)
Definition without_dockerfile (fs : filesystem) : filesystem :=
  match dir_lookup "Dockerfile" (cwd fs) with
  | Some (File _) => set_cwd (dir_delete "Dockerfile" (cwd fs)) fs
  | _ => fs
  end.

(** The computation [m] leaves the entry named [n] of the distgit
    directory alone, and the directories [D] outside of it, whether it
    returns or raises. *)
Definition keeps {A : Type} (D : string -> option dir) (n : string)
    (m : M A) : Prop :=
  forall fs r fs',
    dirs fs = D -> m fs = (r, fs') ->
    dir_lookup n (cwd fs') = dir_lookup n (cwd fs) /\ dirs fs' = D.

(** ** More sample file systems *)

(** A distgit clone whose unprotected entries are directories. *)
Definition fs_dirs_only : filesystem :=
  {| cwd := [(".git", git_meta); ("docs", Dir [("README", File "read me")]);
             ("additional-tags", File "latest"); ("build", Dir [])];
     dirs := source_at [("new-file.txt", File "new")] |}.

(** A file system with a directory [/opt/shared] beside the source. *)
Definition fs_shared : filesystem :=
  {| cwd := [(".git", git_meta)];
     dirs := fun p =>
       if String.eqb p "/src/app" then Some [("new-file.txt", File "new")]
       else if String.eqb p "/opt/shared" then Some []
       else None |}.

(** A distgit directory with build files for several distributions. *)
Definition fs_variants : filesystem :=
  {| cwd := [(".git", git_meta); ("Dockerfile", File "FROM scratch");
             ("Dockerfile.centos", File "FROM centos7");
             ("Dockerfile.rhel", File "FROM rhel7")];
     dirs := source_at [] |}.

(** A fresh distgit clone, and a source with a [Dockerfile] only. *)
Definition fs_plain_dockerfile : filesystem :=
  {| cwd := [(".git", git_meta)];
     dirs := source_at [("Dockerfile", File "FROM scratch")] |}.

(** A fresh distgit clone, and a source in which the misspelled name is
    taken by a directory. *)
Definition fs_dockerilfe_dir : filesystem :=
  {| cwd := [(".git", git_meta)];
     dirs := source_at [("Dockerfile", File "FROM scratch");
                        ("Dockerfile.rhel", File "FROM rhel7");
                        ("Dockerilfe", Dir [])] |}.



(** ** Directories as lists of entries *)

Section DirLemmas.

Implicit Types (n m : string) (x : node) (d : dir).

Lemma dir_lookup_delete_eq n d : dir_lookup n (dir_delete n d) = None.
Proof.
  induction d as [|[m y] d IH]; simpl; [done|].
  destruct (String.eqb_spec n m) as [->|Hne]; simpl; [done|].
  by rewrite (proj2 (String.eqb_neq n m) Hne).
Qed.

Lemma dir_lookup_delete_ne n m d :
  n <> m -> dir_lookup n (dir_delete m d) = dir_lookup n d.
Proof.
  intros Hne. induction d as [|[k y] d IH]; simpl; [done|].
  destruct (String.eqb_spec m k) as [->|Hmk]; simpl.
  - by rewrite (proj2 (String.eqb_neq n k) Hne).
  - by rewrite IH.
Qed.


Lemma dir_lookup_insert_ne n m x d :
  n <> m -> dir_lookup n (dir_insert m x d) = dir_lookup n d.
Proof.
  intros Hne. induction d as [|[k y] d IH]; simpl.
  - by rewrite (proj2 (String.eqb_neq n m) Hne).
  - destruct (String.eqb_spec m k) as [->|Hmk]; simpl.
    + by rewrite (proj2 (String.eqb_neq n k) Hne).
    + by rewrite IH.
Qed.

Lemma dir_delete_sublist n d : sublist (dir_delete n d) d.
Proof.
  induction d as [|[m y] d IH]; simpl; [constructor|].
  destruct (String.eqb n m); by constructor.
Qed.

Lemma dir_lookup_listed n d :
  In n (List.map fst d) -> is_Some (dir_lookup n d).
Proof.
  induction d as [|[m y] d IH]; simpl; [done|].
  intros [->|Hin].
  - rewrite String.eqb_refl. by eexists.
  - destruct (String.eqb n m); [by eexists | by apply IH].
Qed.

Lemma dir_lookup_In n x d : dir_lookup n d = Some x -> In (n, x) d.
Proof.
  induction d as [|[m y] d IH]; simpl; [done|].
  destruct (String.eqb_spec n m) as [->|Hne].
  - intros [= ->]. by left.
  - intros H. right. by apply IH.
Qed.

End DirLemmas.

(** ** Running computations *)

Lemma bind_run {A B : Type} (m : M A) (f : A -> M B) (fs : filesystem) :
(m ≫= f) fs =
match m fs with
| (Ok a, fs') => f a fs'
| (Raise e, fs') => (Raise e, fs')
end.
Proof. reflexivity. Qed.

Lemma bind_run_ok {A B : Type} (m : M A) (f : A -> M B) fs a fs' :
m fs = (Ok a, fs') -> (m ≫= f) fs = f a fs'.
Proof. intros H. by rewrite bind_run, H. Qed.

Lemma bind_run_raise {A B : Type} (m : M A) (f : A -> M B) fs e fs' :
m fs = (Raise e, fs') -> (m ≫= f) fs = (Raise e, fs').
Proof. intros H. by rewrite bind_run, H. Qed.

Lemma for_each_cons {A : Type} (x : A) (l : list A) (body : A -> M unit) fs :
for_each (x :: l) body fs =
match body x fs with
| (Ok _, fs') => for_each l body fs'
| (Raise e, fs') => (Raise e, fs')
end.
Proof. reflexivity. Qed.

(** ** Source path resolution *)

Section SourcePath.

Variable self : ImageMetadata.
Variable fs : filesystem.

Abbreviation cfg_alias := (content_source (config self) ≫= alias).
Abbreviation cfg_path := (content_source (config self) ≫= path).

Lemma assert_dir_ok p msg :
  is_Some (dirs fs p) -> assert_dir p msg fs = (Ok tt, fs).
Proof.
  intros H. unfold assert_dir. rewrite bind_run. simpl.
  by rewrite bool_decide_eq_true_2.
Qed.

Lemma assert_dir_fails p msg :
  dirs fs p = None -> assert_dir p msg fs = (Raise (FilesystemError msg), fs).
Proof.
  intros H. unfold assert_dir. rewrite bind_run. simpl.
  rewrite bool_decide_eq_false_2; [done|]. rewrite H. by intros [? ?].
Qed.

(** Once the alias is found in the registry, [source_path] is the check
    of the resolved path. *)
Lemma source_path_registered a root :
  cfg_alias = Some a ->
  source_alias (runtime self) !! a = Some root ->
  let p := from_option (os_path_join root) root cfg_path in
  source_path self fs =
  (assert_dir p ("Unable to find path within source [" +:+ p
                   +:+ "] for config: " +:+ dir_ self) ;; mret p) fs.
Proof.
  intros Ha Hroot. unfold source_path. rewrite Ha, Hroot.
  by destruct cfg_path.
Qed.

(** C4: with a registered alias, [source_path] returns the registry's
    root for the alias when [content.source.path] is absent, and the
    [os.path.join] of that root and the sub-path when it is present,
    provided the resolved path is an existing directory. *)
Theorem source_path_resolves a root :
  cfg_alias = Some a ->
  source_alias (runtime self) !! a = Some root ->
  (cfg_path = None -> is_Some (dirs fs root) ->
     source_path self fs = (Ok root, fs)) /\
  (forall sub, cfg_path = Some sub ->
     is_Some (dirs fs (os_path_join root sub)) ->
     source_path self fs = (Ok (os_path_join root sub), fs)).
Proof.
  intros Ha Hroot. split.
  - intros Hp Hdir. rewrite (source_path_registered a root Ha Hroot), Hp.
    simpl. by rewrite (bind_run_ok _ _ _ _ _ (assert_dir_ok _ _ Hdir)).
  - intros sub Hp Hdir.
    rewrite (source_path_registered a root Ha Hroot), Hp.
    simpl. by rewrite (bind_run_ok _ _ _ _ _ (assert_dir_ok _ _ Hdir)).
Qed.

(** C5: [source_path] raises its first [IOError] (the ConfigError of the
    specification) when [content.source.alias] is absent and its second
    when the alias is not a key of the registry; the file system is left
    as it was. *)
Theorem source_path_alias_errors :
  (cfg_alias = None ->
     source_path self fs =
     (Raise (IOError ("Can't find source alias in image config: "
                        +:+ dir_ self)), fs)) /\
  (forall a, cfg_alias = Some a ->
     source_alias (runtime self) !! a = None ->
     source_path self fs =
     (Raise (IOError ("Required source alias has not been registered ["
                        +:+ a +:+ "] for image config: " +:+ dir_ self)),
      fs)).
Proof.
  unfold source_path. split.
  - by intros ->.
  - by intros a -> ->.
Qed.

(** C6: with a registered alias, when the resolved path (the registry's
    root, joined with [content.source.path] if present) is not an
    existing directory, [source_path] fails with a [FilesystemError]. *)
Theorem source_path_not_a_directory a root :
  cfg_alias = Some a ->
  source_alias (runtime self) !! a = Some root ->
  let p := from_option (os_path_join root) root cfg_path in
  dirs fs p = None ->
  source_path self fs =
  (Raise (FilesystemError ("Unable to find path within source [" +:+ p
                             +:+ "] for config: " +:+ dir_ self)), fs).
Proof.
  intros Ha Hroot p Hdir.
  rewrite (source_path_registered a root Ha Hroot).
  by rewrite (bind_run_raise _ _ _ _ _ (assert_dir_fails _ _ Hdir)).
Qed.

End SourcePath.

(** ** Directory population *)

Lemma bind_assoc {A B C : Type} (m : M A) (f : A -> M B) (g : B -> M C) fs :
  ((m ≫= f) ≫= g) fs = (m ≫= (fun a => f a ≫= g)) fs.
Proof. rewrite !bind_run. by destruct (m fs) as [[a|e] fs']. Qed.

Lemma populate_with_source __name__ self fs :
  is_Some (content_source (config self)) ->
  populate_distgit_dir __name__ self fs =
  (selective_clean ;; copy_source self ;; normalize_dockerfile self ;;
   stray_cleanup __name__) fs.
Proof. intros [s Hs]. unfold populate_distgit_dir. by rewrite Hs. Qed.

(** *** The selective clean *)

Lemma not_additional_tags ent :
  ent <> "additional-tags" -> bool_decide (ent ∈ ["additional-tags"]) = false.
Proof.
  intros Hne. apply bool_decide_eq_false_2.
  by rewrite list_elem_of_singleton.
Qed.

Lemma clean_entry_file ent c fs :
  startswith ent "." = false ->
  ent <> "additional-tags" ->
  dir_lookup ent (cwd fs) = Some (File c) ->
  clean_entry ent fs = (Raise (OSError ENOTDIR ent), fs).
Proof.
  intros Hdot Htag Hfile. unfold clean_entry, shutil_rmtree.
  by rewrite Hdot, (not_additional_tags _ Htag), Hfile.
Qed.

Lemma clean_entry_dir ent es fs :
  startswith ent "." = false ->
  ent <> "additional-tags" ->
  dir_lookup ent (cwd fs) = Some (Dir es) ->
  clean_entry ent fs = (Ok tt, set_cwd (dir_delete ent (cwd fs)) fs).
Proof.
  intros Hdot Htag Hdir. unfold clean_entry, shutil_rmtree.
  by rewrite Hdot, (not_additional_tags _ Htag), Hdir.
Qed.

Lemma clean_entry_kept ent fs :
  startswith ent "." = true \/ ent = "additional-tags" ->
  clean_entry ent fs = (Ok tt, fs).
Proof.
  intros [Hdot | ->]; unfold clean_entry.
  - by rewrite Hdot.
  - by destruct (startswith _ _).
Qed.

(** The loop over a listing [ns] of distinct names that are all present:
    with an unprotected regular file among them, the loop ends at the first
    such file with the error of [shutil.rmtree], having removed directories
    only. *)
Lemma clean_loop_raises (ns : list string) :
  forall fs f c,
    List.NoDup ns ->
    (forall n, In n ns -> is_Some (dir_lookup n (cwd fs))) ->
    In f ns ->
    startswith f "." = false ->
    f <> "additional-tags" ->
    dir_lookup f (cwd fs) = Some (File c) ->
    exists g c' fs',
      for_each ns clean_entry fs = (Raise (OSError ENOTDIR g), fs') /\
      startswith g "." = false /\ g <> "additional-tags" /\
      dir_lookup g (cwd fs) = Some (File c') /\
      sublist (cwd fs') (cwd fs) /\
      dirs fs' = dirs fs /\
      (forall n x, dir_lookup n (cwd fs) = Some (File x) ->
                   dir_lookup n (cwd fs') = Some (File x)).
Proof.
  induction ns as [|n0 ns IH]; intros fs f c Hnd Hall Hin Hdot Htag Hfile.
  { destruct Hin. }
  apply List.NoDup_cons_iff in Hnd as [Hn0 Hnd].
  rewrite for_each_cons.
  assert (Htail : forall n, In n ns -> is_Some (dir_lookup n (cwd fs)))
    by (intros n Hn; apply Hall; by right).
  destruct (startswith n0 ".") eqn:Hdot0;
    [|destruct (String.eqb_spec n0 "additional-tags") as [Htag0|Htag0]].
  - (* a hidden entry is skipped *)
    rewrite clean_entry_kept by (by left).
    destruct Hin as [->|Hin]; [congruence|]. by eapply IH.
  - (* so is additional-tags *)
    rewrite clean_entry_kept by (by right).
    destruct Hin as [->|Hin]; [congruence|]. by eapply IH.
  - destruct (Hall n0 (or_introl eq_refl)) as [[c0|es] Hn0x].
    + (* a regular file: rmtree raises *)
      rewrite (clean_entry_file _ _ _ Hdot0 Htag0 Hn0x).
      exists n0, c0, fs. by repeat split.
    + (* a directory: removed, and the loop goes on *)
      rewrite (clean_entry_dir _ _ _ Hdot0 Htag0 Hn0x).
      assert (Hother : forall n, n <> n0 ->
                dir_lookup n (cwd (set_cwd (dir_delete n0 (cwd fs)) fs))
                = dir_lookup n (cwd fs))
        by (intros n Hne; simpl; by apply dir_lookup_delete_ne).
      destruct Hin as [->|Hin]; [congruence|].
      destruct (IH (set_cwd (dir_delete n0 (cwd fs)) fs) f c)
        as (g & c' & fs' & Hrun & Hg1 & Hg2 & Hg & Hsub & Hdirs & Hkeep);
        trivial.
      * intros n Hn. rewrite Hother; [by apply Htail|]. by intros ->.
      * rewrite Hother; [done|]. intros ->. congruence.
      * exists g, c', fs'. repeat split; trivial.
        -- destruct (String.eqb_spec g n0) as [->|Hne].
           ++ simpl in Hg. by rewrite dir_lookup_delete_eq in Hg.
           ++ by rewrite <- (Hother g Hne).
        -- etrans; [exact Hsub|]. apply dir_delete_sublist.
        -- intros n x Hx. apply Hkeep. rewrite Hother; [done|].
           intros ->. congruence.
Qed.

(** *** The stray-variant cleanup *)

(** Under any other name than ["__main__"] the body of the last loop does
    nothing, whatever the entry. *)
Lemma stray_loop_imported __name__ (ns : list string) fs :
  __name__ <> "__main__" ->
  for_each ns (stray_entry __name__) fs = (Ok tt, fs).
Proof.
  intros Hname. induction ns as [|n ns IH]; [done|].
  rewrite for_each_cons. unfold stray_entry at 1.
  by rewrite (proj2 (String.eqb_neq _ _) Hname).
Qed.

(** Under any name, the last loop touches no entry whose name does not
    start with ["Dockerfile."]. *)
Lemma stray_loop_others __name__ (ns : list string) :
  forall fs r fs',
    for_each ns (stray_entry __name__) fs = (r, fs') ->
    forall n, startswith n "Dockerfile." = false ->
              dir_lookup n (cwd fs') = dir_lookup n (cwd fs).
Proof.
  induction ns as [|n0 ns IH]; intros fs r fs' Hrun n Hn.
  { by injection Hrun as _ <-. }
  rewrite for_each_cons in Hrun. unfold stray_entry at 1 in Hrun.
  destruct (String.eqb __name__ "__main__"); [|by eapply IH].
  destruct (startswith n0 "Dockerfile.") eqn:Hn0; [|by eapply IH].
  unfold os_remove in Hrun.
  destruct (dir_lookup n0 (cwd fs)) as [[c0|es]|].
  - rewrite (IH _ _ _ Hrun n Hn). simpl.
    apply dir_lookup_delete_ne. intros ->. congruence.
  - by injection Hrun as _ <-.
  - by injection Hrun as _ <-.
Qed.

(** *** Paths into the working directory *)




Lemma rename_source_entry (src : string) (d : dir) x :
  dir_lookup src d = Some x -> rename_source src d = Found [src] x.
Proof. intros H. unfold rename_source. by rewrite H. Qed.

Lemma rename_source_no_entry (src : string) (d : dir) :
  rename_source src d = Missing -> dir_lookup src d = None.
Proof.
  unfold rename_source. by destruct (dir_lookup src d).
Qed.

(** A name that is one component leads to the entry of that name. *)
Lemma rename_source_plain (src : string) (d : dir) p x :
  List.filter (fun c => negb (String.eqb c "")) (split_slash src) = [src] ->
  rename_source src d = Found p x ->
  p = [src].
Proof.
  intros Hcomps. unfold rename_source.
  destruct (dir_lookup src d) as [y|]; [by intros [= <- _]|].
  destruct (String.eqb src ""); [done|].
  destruct (startswith src "/"); [done|].
  rewrite Hcomps. simpl.
  destruct (_ || _); [done|].
  destruct (path_lookup [src] d) as [[c|es]|]; [| |done].
  - destruct (endswith src "/"); [done|]. by intros [= <- _].
  - by intros [= <- _].
Qed.

Lemma rename_source_plain_inside (src : string) (d : dir) :
  List.filter (fun c => negb (String.eqb c "")) (split_slash src) = [src] ->
  startswith src "/" = false ->
  rename_source src d <> Outside.
Proof.
  intros Hcomps Hrel. unfold rename_source.
  destruct (dir_lookup src d) as [y|]; [done|].
  destruct (String.eqb src ""); [done|].
  rewrite Hrel, Hcomps. simpl.
  destruct (_ || _); [done|].
  destruct (path_lookup [src] d) as [[c|es]|]; [|done|done].
  by destruct (endswith src "/").
Qed.

(** Taking a node out changes the entry its first name leads to only. *)
Lemma path_delete_other (n : string) (p : list string) (d : dir) :
  hd_error p <> Some n ->
  dir_lookup n (path_delete p d) = dir_lookup n d.
Proof.
  destruct p as [|h [|k t]]; simpl; intros Hn; [done| |].
  - apply dir_lookup_delete_ne. congruence.
  - destruct (dir_lookup h d) as [[?|es]|]; trivial.
    apply dir_lookup_insert_ne. congruence.
Qed.








(** *** The Dockerfile normalization *)

Lemma without_dockerfile_other n fs :
  n <> "Dockerfile" ->
  dir_lookup n (cwd (without_dockerfile fs)) = dir_lookup n (cwd fs).
Proof.
  intros Hn. unfold without_dockerfile.
  destruct (dir_lookup "Dockerfile" (cwd fs)) as [[?|?]|]; simpl; trivial.
  by apply dir_lookup_delete_ne.
Qed.

Lemma without_dockerfile_no_file fs x :
  dir_lookup "Dockerfile" (cwd (without_dockerfile fs)) <> Some (File x).
Proof.
  unfold without_dockerfile.
  destruct (dir_lookup "Dockerfile" (cwd fs)) as [[?|?]|] eqn:H; simpl;
    rewrite ?dir_lookup_delete_eq, ?H; done.
Qed.

Lemma without_dockerfile_dirs fs : dirs (without_dockerfile fs) = dirs fs.
Proof.
  unfold without_dockerfile.
  by destruct (dir_lookup "Dockerfile" (cwd fs)) as [[?|?]|].
Qed.

(** With another build file configured, the normalization is the rename
    on the file system without a regular file [Dockerfile]. *)
Lemma normalize_dockerfile_run self fs d :
  content_source (config self) ≫= dockerfile = Some d ->
  d <> "Dockerfile" ->
  normalize_dockerfile self fs
  = os_rename d "Dockerilfe" (without_dockerfile fs).
Proof.
  intros Hcfg Hne. unfold normalize_dockerfile. rewrite Hcfg.
  rewrite (proj2 (String.eqb_neq _ _) Hne).
  change (negb false) with true. cbv iota.
  rewrite !bind_run. unfold os_path_isfile, without_dockerfile.
  destruct (dir_lookup "Dockerfile" (cwd fs)) as [[c0|es]|] eqn:Hdf;
    rewrite ?bind_run; unfold os_remove, pass; by rewrite ?Hdf.
Qed.

Lemma populate_after_copy __name__ self fs fs1 :
  is_Some (content_source (config self)) ->
  (selective_clean ;; copy_source self) fs = (Ok tt, fs1) ->
  populate_distgit_dir __name__ self fs
  = (normalize_dockerfile self ;; stray_cleanup __name__) fs1.
Proof.
  intros Hsrc Hsteps. rewrite (populate_with_source _ _ _ Hsrc).
  by rewrite <- bind_assoc, (bind_run_ok _ _ _ _ _ Hsteps).
Qed.

Lemma dockerfile_configured self d :
  content_source (config self) ≫= dockerfile = Some d ->
  is_Some (content_source (config self)).
Proof. destruct (content_source (config self)); [by eexists | done]. Qed.



(** *** Populate *)

Section Populate.

Variable __name__ : string.
Variable self : ImageMetadata.
Variable fs : filesystem.

(** C3: when the configuration has no [content.source], populate returns
    at once and leaves the whole file system, the distgit tree with it, as
    it was. *)
Theorem populate_without_source :
  content_source (config self) = None ->
  populate_distgit_dir __name__ self fs = (Ok tt, fs).
Proof. intros H. unfold populate_distgit_dir. by rewrite H. Qed.


(** C9: when the module runs under a name other than ["__main__"] (it is
    imported), the body of the stray-variant loop does nothing: populate
    is its first three steps, and every entry whose name starts with
    ["Dockerfile."] that is present after the copy and rename steps is
    present when populate returns. *)
Theorem stray_cleanup_dead_when_imported :
  __name__ <> "__main__" ->
  is_Some (content_source (config self)) ->
  (forall fs1, stray_cleanup __name__ fs1 = (Ok tt, fs1)) /\
  forall r fs1,
    (selective_clean ;; copy_source self ;; normalize_dockerfile self) fs
    = (r, fs1) ->
    exists fs',
      populate_distgit_dir __name__ self fs = (r, fs') /\
      forall ent x,
        startswith ent "Dockerfile." = true ->
        dir_lookup ent (cwd fs1) = Some x ->
        dir_lookup ent (cwd fs') = Some x.
Proof.
  intros Hname Hsrc.
  assert (Hdead : forall fs1, stray_cleanup __name__ fs1 = (Ok tt, fs1)).
  { intros fs1. unfold stray_cleanup. rewrite bind_run. simpl.
    by apply stray_loop_imported. }
  split; [exact Hdead|].
  intros r fs1 Hsteps. exists fs1. split; [|done].
  rewrite (populate_with_source _ _ _ Hsrc).
  assert (Hassoc :
    (selective_clean ;; copy_source self ;; normalize_dockerfile self ;;
     stray_cleanup __name__) fs
    = ((selective_clean ;; copy_source self ;; normalize_dockerfile self) ;;
       stray_cleanup __name__) fs).
  { rewrite !bind_run. destruct (selective_clean fs) as [[[]|e] fs2]; [|done].
    rewrite !bind_run. by destruct (copy_source self fs2) as [[[]|e] fs3]. }
  rewrite Hassoc, bind_run, Hsteps.
  destruct r as [[]|e]; [apply Hdead | done].
Qed.

(** C10: when the distgit directory has a regular file among its direct
    entries that is neither hidden nor named ["additional-tags"], and
    [content.source] is present, populate ends in the selective clean with
    the error [shutil.rmtree] raises on a regular file.  Nothing has been
    copied, renamed or cleaned up by then: the directory holds a part of
    its former entries, the regular files all among them, and the rest of
    the file system is as it was. *)
Theorem populate_rmtree_on_regular_file f c :
  wf_dir (cwd fs) ->
  is_Some (content_source (config self)) ->
  dir_lookup f (cwd fs) = Some (File c) ->
  startswith f "." = false ->
  f <> "additional-tags" ->
  exists g c' fs',
    populate_distgit_dir __name__ self fs = (Raise (OSError ENOTDIR g), fs') /\
    selective_clean fs = (Raise (OSError ENOTDIR g), fs') /\
    startswith g "." = false /\ g <> "additional-tags" /\
    dir_lookup g (cwd fs) = Some (File c') /\
    sublist (cwd fs') (cwd fs) /\
    dirs fs' = dirs fs /\
    dir_lookup f (cwd fs') = Some (File c).
Proof.
  intros Hwf Hsrc Hf Hdot Htag.
  destruct (clean_loop_raises (List.map fst (cwd fs)) fs f c)
    as (g & c' & fs' & Hrun & Hg1 & Hg2 & Hg & Hsub & Hdirs & Hkeep);
    trivial.
  { intros n. apply dir_lookup_listed. }
  { apply dir_lookup_In in Hf.
    apply (List.in_map fst) in Hf. exact Hf. }
  assert (Hclean : selective_clean fs = (Raise (OSError ENOTDIR g), fs'))
    by (unfold selective_clean; by rewrite bind_run).
  exists g, c', fs'. repeat split; trivial.
  - rewrite (populate_with_source _ _ _ Hsrc).
    by rewrite (bind_run_raise _ _ _ _ _ Hclean).
  - by apply Hkeep.
Qed.

End Populate.

(** ** The properties at sample inputs *)

Lemma populate_without_source_witness :
  populate_distgit_dir "image" plain_image fs_old_file = (Ok tt, fs_old_file).
Proof.
  apply (populate_without_source "image" plain_image fs_old_file).
  reflexivity.
Defined.

Lemma source_path_resolves_witness :
  source_path image_app fs_new_file = (Ok "/src/app", fs_new_file) /\
  source_path (sample_image (Some "app") (Some "sub") None) fs_sub
  = (Ok "/src/app/sub", fs_sub).
Proof.
  split.
  - apply (proj1 (source_path_resolves image_app fs_new_file
                    "app" "/src/app" eq_refl eq_refl)).
    + reflexivity.
    + simpl. by eexists.
  - apply (proj2 (source_path_resolves
                    (sample_image (Some "app") (Some "sub") None) fs_sub
                    "app" "/src/app" eq_refl eq_refl) "sub").
    + reflexivity.
    + simpl. by eexists.
Defined.

Lemma source_path_alias_errors_witness :
  source_path (sample_image None None None) fs_new_file
  = (Raise (IOError "Can't find source alias in image config: /images/app"),
     fs_new_file) /\
  source_path (sample_image (Some "web") None None) fs_new_file
  = (Raise (IOError "Required source alias has not been registered [web] for image config: /images/app"),
     fs_new_file).
Proof.
  split.
  - apply (proj1 (source_path_alias_errors
                    (sample_image None None None) fs_new_file)).
    reflexivity.
  - apply (proj2 (source_path_alias_errors
                    (sample_image (Some "web") None None) fs_new_file) "web").
    + reflexivity.
    + reflexivity.
Defined.

Lemma source_path_not_a_directory_witness :
  source_path (sample_image (Some "app") (Some "missing") None) fs_new_file
  = (Raise (FilesystemError "Unable to find path within source [/src/app/missing] for config: /images/app"),
     fs_new_file).
Proof.
  apply (source_path_not_a_directory
           (sample_image (Some "app") (Some "missing") None) fs_new_file
           "app" "/src/app").
  - reflexivity.
  - reflexivity.
  - reflexivity.
Defined.


Lemma stray_cleanup_dead_when_imported_witness :
  (forall fs1, stray_cleanup "image" fs1 = (Ok tt, fs1)) /\
  forall r fs1,
    (selective_clean ;; copy_source image_rhel ;;
     normalize_dockerfile image_rhel) fs_rhel = (r, fs1) ->
    exists fs',
      populate_distgit_dir "image" image_rhel fs_rhel = (r, fs') /\
      forall ent x,
        startswith ent "Dockerfile." = true ->
        dir_lookup ent (cwd fs1) = Some x ->
        dir_lookup ent (cwd fs') = Some x.
Proof.
  apply (stray_cleanup_dead_when_imported "image" image_rhel fs_rhel).
  - discriminate.
  - simpl. by eexists.
Defined.

Lemma populate_rmtree_on_regular_file_witness :
  exists g c' fs',
    populate_distgit_dir "image" image_app fs_old_file
    = (Raise (OSError ENOTDIR g), fs') /\
    selective_clean fs_old_file = (Raise (OSError ENOTDIR g), fs') /\
    startswith g "." = false /\ g <> "additional-tags" /\
    dir_lookup g (cwd fs_old_file) = Some (File c') /\
    sublist (cwd fs') (cwd fs_old_file) /\
    dirs fs' = dirs fs_old_file /\
    dir_lookup "old-file.txt" (cwd fs') = Some (File "old").
Proof.
  apply (populate_rmtree_on_regular_file "image" image_app fs_old_file
           "old-file.txt" "old").
  - unfold wf_dir. simpl.
    repeat (apply List.NoDup_cons; [simpl; intuition discriminate|]).
    apply List.NoDup_nil.
  - simpl. by eexists.
  - reflexivity.
  - reflexivity.
  - discriminate.
Defined.


(** C1 at its own example: with [Dockerfile.rhel] configured and present
    in the source, populate returns with the content of [Dockerfile.rhel]
    under the name ["Dockerilfe"]; there is no ["Dockerfile"], and
    [Dockerfile.centos] has not been cleaned up. *)
Lemma populate_rhel_misnames_build_file :
  populate_distgit_dir "image" image_rhel fs_rhel
  = (Ok tt,
     set_cwd [(".git", git_meta);
              ("Dockerfile.centos", File "FROM centos7");
              ("Dockerilfe", File "FROM rhel7")] fs_rhel) /\
  dir_lookup "Dockerfile"
    (cwd (snd (populate_distgit_dir "image" image_rhel fs_rhel))) = None /\
  dir_lookup "Dockerfile.centos"
    (cwd (snd (populate_distgit_dir "image" image_rhel fs_rhel)))
  = Some (File "FROM centos7").
Proof. repeat split; vm_compute; reflexivity. Qed.

(** C2 at its own example: with a regular file [old-file.txt] in the
    distgit directory, populate raises the error of [shutil.rmtree] and
    leaves the directory as it was: [old-file.txt] is still there and
    [new-file.txt] has not been copied. *)
Lemma populate_old_file_raises :
  populate_distgit_dir "image" image_app fs_old_file
  = (Raise (OSError ENOTDIR "old-file.txt"), fs_old_file) /\
  dir_lookup "new-file.txt"
    (cwd (snd (populate_distgit_dir "image" image_app fs_old_file))) = None.
Proof. split; vm_compute; reflexivity. Qed.

(** C7 at a sample input: the first run returns with [docs] and
    [new-file.txt] copied; the second run on its result removes [docs] and
    then raises on [new-file.txt], which the first run has copied, so that
    it neither returns nor leaves the tree of the first run. *)
Lemma populate_twice_raises :
  populate_distgit_dir "image" image_app fs_docs
  = (Ok tt,
     set_cwd [(".git", git_meta); ("docs", Dir [("README", File "read me")]);
              ("new-file.txt", File "new")] fs_docs) /\
  populate_distgit_dir "image" image_app
    (snd (populate_distgit_dir "image" image_app fs_docs))
  = (Raise (OSError ENOTDIR "new-file.txt"),
     set_cwd [(".git", git_meta); ("new-file.txt", File "new")] fs_docs) /\
  cwd (snd (populate_distgit_dir "image" image_app
              (snd (populate_distgit_dir "image" image_app fs_docs))))
  <> cwd (snd (populate_distgit_dir "image" image_app fs_docs)).
Proof.
  split; [vm_compute; reflexivity|].
  split; [vm_compute; reflexivity|].
  vm_compute. discriminate.
Qed.

(** ** More on source path resolution *)

Lemma prefix_app (a b : string) : String.prefix a (a +:+ b) = true.
Proof.
  induction a as [|c a IH]; simpl; [by destruct b|].
  by destruct (ascii_dec c c).
Qed.

Lemma prefix_refl (a : string) : String.prefix a a = true.
Proof.
  induction a as [|c a IH]; simpl; [done|].
  by destruct (ascii_dec c c).
Qed.

Section SourcePathMore.

Variable self : ImageMetadata.
Variable fs : filesystem.

Abbreviation the_alias := (content_source (config self) ≫= alias).
Abbreviation the_path := (content_source (config self) ≫= path).

Lemma source_path_state : snd (source_path self fs) = fs.
Proof.
  unfold source_path.
  destruct the_alias as [a|]; [|reflexivity].
  destruct (source_alias (runtime self) !! a) as [root|]; [|reflexivity].
  rewrite bind_run. unfold assert_dir. rewrite bind_run. simpl.
  by destruct (bool_decide _).
Qed.

(** [source_path] only reads: whatever it returns or raises, the file
    system is the one it started on. *)
Theorem source_path_reads_only : snd (source_path self fs) = fs.
Proof. apply source_path_state. Qed.

Lemma source_path_ok_inv_aux p fs' :
  source_path self fs = (Ok p, fs') ->
  exists a root,
    the_alias = Some a /\
    source_alias (runtime self) !! a = Some root /\
    p = from_option (os_path_join root) root the_path /\
    is_Some (dirs fs p) /\
    fs' = fs.
Proof.
  unfold source_path.
  destruct the_alias as [a|]; [|done].
  destruct (source_alias (runtime self) !! a) as [root|] eqn:Hroot; [|done].
  intros Hrun. exists a, root.
  set (q := from_option (os_path_join root) root the_path).
  assert (Hq : match the_path with
               | Some sub_path => os_path_join root sub_path
               | None => root
               end = q) by (unfold q; by destruct the_path).
  rewrite Hq in Hrun. rewrite bind_run in Hrun.
  unfold assert_dir in Hrun. rewrite bind_run in Hrun. simpl in Hrun.
  destruct (bool_decide (is_Some (dirs fs q))) eqn:Hdir; [|done].
  apply bool_decide_eq_true_1 in Hdir.
  injection Hrun as <- <-. by repeat split.
Qed.

(** A path [source_path] returns comes from a registered alias: it is the
    root of the alias, joined with the sub-path if there is one, and it is
    an existing directory. *)
Theorem source_path_ok_inv p fs' :
  source_path self fs = (Ok p, fs') ->
  exists a root,
    the_alias = Some a /\
    source_alias (runtime self) !! a = Some root /\
    p = from_option (os_path_join root) root the_path /\
    is_Some (dirs fs p) /\
    fs' = fs.
Proof. apply source_path_ok_inv_aux. Qed.

(** An absolute [content.source.path] takes the place of the root of the
    alias: [source_path] returns the sub-path itself, whatever the
    registry gives for the alias. *)
Theorem source_path_absolute_sub_path a root sub :
  the_alias = Some a ->
  source_alias (runtime self) !! a = Some root ->
  the_path = Some sub ->
  startswith sub "/" = true ->
  is_Some (dirs fs sub) ->
  source_path self fs = (Ok sub, fs).
Proof.
  intros Ha Hroot Hsub Habs Hdir.
  rewrite (source_path_registered self fs a root Ha Hroot), Hsub. simpl.
  unfold os_path_join. rewrite Habs.
  by rewrite (bind_run_ok _ _ _ _ _ (assert_dir_ok fs _ _ Hdir)).
Qed.

(** With no sub-path, or with a relative one, the path [source_path]
    returns begins with the root of the alias. *)
Theorem source_path_under_root a root p fs' :
  the_alias = Some a ->
  source_alias (runtime self) !! a = Some root ->
  (forall sub, the_path = Some sub -> startswith sub "/" = false) ->
  source_path self fs = (Ok p, fs') ->
  String.prefix root p = true.
Proof.
  intros Ha Hroot Hrel Hrun.
  destruct (source_path_ok_inv_aux p fs' Hrun)
    as (a' & root' & Ha' & Hroot' & -> & _).
  rewrite Ha in Ha'. injection Ha' as <-.
  rewrite Hroot in Hroot'. injection Hroot' as <-.
  destruct the_path as [sub|]; simpl.
  - unfold os_path_join. rewrite (Hrel sub eq_refl).
    destruct (String.eqb root "" || endswith root "/"); apply prefix_app.
  - apply prefix_refl.
Qed.

End SourcePathMore.

(** ** Loops that delete entries *)

Lemma dir_delete_filter (n : string) (d : dir) :
  dir_delete n d = List.filter (fun e => negb (String.eqb n (fst e))) d.
Proof.
  induction d as [|[m y] d IH]; simpl; [done|].
  destruct (String.eqb n m); simpl; by rewrite IH.
Qed.

Lemma filter_filter_dir (f g : string * node -> bool) (d : dir) :
  List.filter f (List.filter g d) = List.filter (fun e => g e && f e) d.
Proof.
  induction d as [|e d IH]; simpl; [done|].
  destruct (g e); simpl; [|done]. destruct (f e); by rewrite IH.
Qed.

Lemma filter_all_dir (d : dir) : List.filter (fun _ => true) d = d.
Proof. induction d as [|e d IH]; simpl; by rewrite ?IH. Qed.

Lemma set_cwd_same (fs : filesystem) : set_cwd (cwd fs) fs = fs.
Proof. by destruct fs. Qed.

Section DeleteLoop.

(** A loop body that skips the entries [sel] does not select and deletes
    the selected ones, when they are of the kind [ok] it can delete. *)
Variable sel : string -> bool.
Variable ok : node -> bool.
Variable body : string -> M unit.

Hypothesis body_skip :
  forall ent fs, sel ent = false -> body ent fs = (Ok tt, fs).
Hypothesis body_delete :
  forall ent fs x,
    sel ent = true -> dir_lookup ent (cwd fs) = Some x -> ok x = true ->
    body ent fs = (Ok tt, set_cwd (dir_delete ent (cwd fs)) fs).

Lemma delete_loop_ok (ns : list string) :
  forall fs,
    List.NoDup ns ->
    (forall n, In n ns -> sel n = true ->
       exists x, dir_lookup n (cwd fs) = Some x /\ ok x = true) ->
    for_each ns body fs =
    (Ok tt,
     set_cwd (List.filter
                (fun e => negb (sel (fst e)
                                && existsb (String.eqb (fst e)) ns))
                (cwd fs)) fs).
Proof.
  induction ns as [|n0 ns IH]; intros fs Hnd Hall.
  { simpl. rewrite (List.filter_ext _ (fun _ => true)).
    - by rewrite filter_all_dir, set_cwd_same.
    - intros e. by rewrite andb_false_r. }
  apply List.NoDup_cons_iff in Hnd as [Hn0 Hnd].
  rewrite for_each_cons.
  destruct (sel n0) eqn:Hsel.
  - destruct (Hall n0 (or_introl eq_refl) Hsel) as (x & Hx & Hok).
    rewrite (body_delete _ _ _ Hsel Hx Hok), IH; trivial.
    + f_equal. unfold set_cwd. simpl. f_equal.
      rewrite dir_delete_filter, filter_filter_dir.
      apply List.filter_ext. intros [m y]. simpl.
      rewrite (String.eqb_sym m n0).
      destruct (String.eqb_spec n0 m) as [<-|Hne]; simpl.
      * by rewrite Hsel.
      * done.
    + intros n Hn Hs. simpl. rewrite dir_lookup_delete_ne.
      * apply Hall; [by right | done].
      * intros ->. contradiction.
  - rewrite (body_skip _ _ Hsel), IH; trivial.
    + f_equal. f_equal. apply List.filter_ext. intros [m y]. simpl.
      destruct (String.eqb_spec m n0) as [->|Hne]; simpl; [|done].
      by rewrite Hsel.
    + intros n Hn Hs. apply Hall; [by right | done].
Qed.

(** The loop over the listing of a directory leaves the entries that are
    not selected, in their order. *)
Lemma delete_loop_listing (fs : filesystem) :
  wf_dir (cwd fs) ->
  (forall n x, In (n, x) (cwd fs) -> sel n = true -> ok x = true) ->
  for_each (List.map fst (cwd fs)) body fs =
  (Ok tt, set_cwd (List.filter (fun e => negb (sel (fst e))) (cwd fs)) fs).
Proof.
  intros Hwf Hok. rewrite delete_loop_ok; trivial.
  - f_equal. f_equal. apply List.filter_ext_in. intros [m y] Hin. simpl.
    replace (existsb (String.eqb m) (List.map fst (cwd fs))) with true;
      [by rewrite andb_true_r|].
    symmetry. apply List.existsb_exists. exists m. split.
    + by apply (List.in_map fst) in Hin.
    + apply String.eqb_refl.
  - intros n Hn Hs. destruct (dir_lookup_listed n _ Hn) as [x Hx].
    exists x. split; [done|]. apply (Hok n x); [|done].
    by apply dir_lookup_In.
Qed.

End DeleteLoop.

(** ** More on the selective clean *)

Lemma protected_true ent :
  protected ent = true ->
  startswith ent "." = true \/ ent = "additional-tags".
Proof.
  unfold protected. intros H. apply orb_true_iff in H as [H|H]; [by left|].
  right. apply bool_decide_eq_true_1 in H.
  by apply list_elem_of_singleton in H.
Qed.

Lemma protected_false ent :
  protected ent = false ->
  startswith ent "." = false /\ ent <> "additional-tags".
Proof.
  unfold protected. intros H. apply orb_false_iff in H as [H1 H2].
  split; [done|]. intros ->. by vm_compute in H2.
Qed.

Lemma clean_entry_protected ent fs :
  protected ent = true -> clean_entry ent fs = (Ok tt, fs).
Proof. intros H. apply clean_entry_kept. by apply protected_true. Qed.

Lemma clean_entry_unprotected ent fs :
  protected ent = false -> clean_entry ent fs = shutil_rmtree ent fs.
Proof.
  intros H. destruct (protected_false _ H) as [Hdot Htag].
  unfold clean_entry. by rewrite Hdot, (not_additional_tags _ Htag).
Qed.

(** Whatever its outcome, the first loop only removes entries, none of
    them protected and none of them a regular file. *)
Lemma clean_loop_keeps (ns : list string) :
  forall fs r fs',
    for_each ns clean_entry fs = (r, fs') ->
    dirs fs' = dirs fs /\
    sublist (cwd fs') (cwd fs) /\
    (forall n, protected n = true ->
               dir_lookup n (cwd fs') = dir_lookup n (cwd fs)) /\
    (forall n c, dir_lookup n (cwd fs) = Some (File c) ->
                 dir_lookup n (cwd fs') = Some (File c)).
Proof.
  induction ns as [|n0 ns IH]; intros fs r fs' Hrun.
  { injection Hrun as _ <-. by repeat split. }
  rewrite for_each_cons in Hrun.
  destruct (protected n0) eqn:Hp.
  { rewrite (clean_entry_protected _ _ Hp) in Hrun. by eapply IH. }
  rewrite (clean_entry_unprotected _ _ Hp) in Hrun.
  unfold shutil_rmtree in Hrun.
  destruct (dir_lookup n0 (cwd fs)) as [[c0|es]|] eqn:Hn0.
  - injection Hrun as _ <-. by repeat split.
  - destruct (IH _ _ _ Hrun) as (Hdirs & Hsub & Hprot & Hfile).
    simpl in *. repeat split.
    + done.
    + etrans; [exact Hsub|]. apply dir_delete_sublist.
    + intros n Hn. rewrite (Hprot n Hn). apply dir_lookup_delete_ne.
      intros ->. congruence.
    + intros n c Hc. apply Hfile. rewrite dir_lookup_delete_ne; [done|].
      intros ->. congruence.
  - injection Hrun as _ <-. by repeat split.
Qed.

Section SelectiveClean.

Variable fs : filesystem.

(** The selective clean keeps every hidden entry and [additional-tags],
    files and directories alike, also when it ends with an error. *)
Theorem selective_clean_keeps_protected r fs' n :
  selective_clean fs = (r, fs') ->
  protected n = true ->
  dir_lookup n (cwd fs') = dir_lookup n (cwd fs).
Proof.
  unfold selective_clean. rewrite bind_run. simpl. intros Hrun Hn.
  by apply (clean_loop_keeps _ _ _ _ Hrun).
Qed.

(** The selective clean never removes or changes a regular file, adds no
    entry and leaves the directories outside of the distgit directory
    alone, also when it ends with an error: all it can remove is
    directories. *)
Theorem selective_clean_removes_directories_only r fs' :
  selective_clean fs = (r, fs') ->
  sublist (cwd fs') (cwd fs) /\
  dirs fs' = dirs fs /\
  forall n c, dir_lookup n (cwd fs) = Some (File c) ->
              dir_lookup n (cwd fs') = Some (File c).
Proof.
  unfold selective_clean. rewrite bind_run. simpl. intros Hrun.
  destruct (clean_loop_keeps _ _ _ _ Hrun) as (Hdirs & Hsub & _ & Hfile).
  by repeat split.
Qed.

Lemma selective_clean_dirs_run :
  wf_dir (cwd fs) ->
  (forall n x, In (n, x) (cwd fs) -> protected n = false ->
               exists es, x = Dir es) ->
  selective_clean fs =
  (Ok tt, set_cwd (List.filter (fun e => protected (fst e)) (cwd fs)) fs).
Proof.
  intros Hwf Hdirs. unfold selective_clean. rewrite bind_run. simpl.
  rewrite (delete_loop_listing (fun n => negb (protected n))
             (fun x => match x with Dir _ => true | File _ => false end)).
  - f_equal. f_equal. apply List.filter_ext. intros e.
    apply negb_involutive.
  - intros ent fs0 H. apply clean_entry_protected.
    by apply negb_false_iff in H.
  - intros ent fs0 [c|es] H Hx Hok; [done|].
    apply negb_true_iff in H. destruct (protected_false _ H).
    by eapply clean_entry_dir.
  - done.
  - intros n x Hin H. apply negb_true_iff in H.
    by destruct (Hdirs n x Hin H) as [es ->].
Qed.

(** When every unprotected entry of the distgit directory is a directory,
    the selective clean returns normally and leaves exactly the protected
    entries, in their order. *)
Theorem selective_clean_directories :
  wf_dir (cwd fs) ->
  (forall n x, In (n, x) (cwd fs) -> protected n = false ->
               exists es, x = Dir es) ->
  selective_clean fs =
  (Ok tt, set_cwd (List.filter (fun e => protected (fst e)) (cwd fs)) fs).
Proof. apply selective_clean_dirs_run. Qed.

(** Run as a script, the last loop removes the regular files whose names
    start with ["Dockerfile."] and nothing else: when no directory has
    such a name it returns normally and leaves exactly the other entries,
    in their order. *)
Theorem stray_cleanup_as_script :
  wf_dir (cwd fs) ->
  (forall n x, In (n, x) (cwd fs) -> startswith n "Dockerfile." = true ->
               exists c, x = File c) ->
  stray_cleanup "__main__" fs =
  (Ok tt,
   set_cwd (List.filter (fun e => negb (startswith (fst e) "Dockerfile."))
              (cwd fs)) fs).
Proof.
  intros Hwf Hfiles. unfold stray_cleanup. rewrite bind_run. simpl.
  apply (delete_loop_listing (fun n => startswith n "Dockerfile.")
           (fun x => match x with File _ => true | Dir _ => false end)).
  - intros ent fs0 H. unfold stray_entry. simpl. by rewrite H.
  - intros ent fs0 [c|es] H Hx Hok; [|done].
    unfold stray_entry, os_remove. simpl. by rewrite H, Hx.
  - done.
  - intros n x Hin H. by destruct (Hfiles n x Hin H) as [c ->].
Qed.

End SelectiveClean.

(** ** More on populate: failures after the clean and the copy *)

Section PopulateFailures.

Variable __name__ : string.
Variable self : ImageMetadata.
Variable fs : filesystem.

(** The source path is resolved after the selective clean: when the clean
    has gone through and [source_path] fails (no alias, an alias that is
    not registered, a path that is no directory), populate raises that
    error with the distgit directory already cleaned and nothing copied. *)
Theorem populate_cleans_before_resolving fs1 e fs2 :
  is_Some (content_source (config self)) ->
  selective_clean fs = (Ok tt, fs1) ->
  source_path self fs1 = (Raise e, fs2) ->
  populate_distgit_dir __name__ self fs = (Raise e, fs1).
Proof.
  intros Hsrc Hclean Hpath.
  rewrite (populate_with_source _ _ _ Hsrc).
  rewrite (bind_run_ok _ _ _ _ _ Hclean).
  assert (Hfs : fs2 = fs1)
    by (rewrite <- (source_path_state self fs1); by rewrite Hpath).
  subst fs2. unfold copy_source.
  by rewrite (bind_run_raise _ _ _ _ _ (bind_run_raise _ _ _ _ _ Hpath)).
Qed.

(** When the configured build file leads to nothing in the distgit
    directory once a regular file [Dockerfile] is out of the way (a name
    that is not there after the copy, or [./Dockerfile]), populate raises
    the error of [os.rename], and a regular file [Dockerfile] has been
    removed by then: the directory is left without a build file of either
    name. *)
Theorem populate_configured_dockerfile_missing fs1 d :
  content_source (config self) ≫= dockerfile = Some d ->
  d <> "Dockerfile" ->
  (selective_clean ;; copy_source self) fs = (Ok tt, fs1) ->
  rename_source d (cwd (without_dockerfile fs1)) = Missing ->
  exists fs2,
    populate_distgit_dir __name__ self fs = (Raise (OSError ENOENT d), fs2) /\
    dir_lookup d (cwd fs2) = None /\
    (forall x, dir_lookup "Dockerfile" (cwd fs2) <> Some (File x)) /\
    (forall n, n <> "Dockerfile" ->
               dir_lookup n (cwd fs2) = dir_lookup n (cwd fs1)).
Proof.
  intros Hcfg Hne Hsteps Hd.
  exists (without_dockerfile fs1).
  repeat split.
  - rewrite (populate_after_copy _ _ _ _ (dockerfile_configured _ _ Hcfg)
               Hsteps).
    apply bind_run_raise. rewrite (normalize_dockerfile_run _ _ _ Hcfg Hne).
    unfold os_rename. by rewrite Hd.
  - by apply rename_source_no_entry.
  - intros x. apply without_dockerfile_no_file.
  - intros n Hn. by apply without_dockerfile_other.
Qed.

(** When a directory named ["Dockerilfe"] is in the way, populate raises
    the error of [os.rename]: the configured build file stays under its
    own name, and a regular file [Dockerfile] has been removed. *)
Theorem populate_rename_onto_directory fs1 d c es :
  content_source (config self) ≫= dockerfile = Some d ->
  d <> "Dockerfile" ->
  (selective_clean ;; copy_source self) fs = (Ok tt, fs1) ->
  dir_lookup d (cwd fs1) = Some (File c) ->
  dir_lookup "Dockerilfe" (cwd fs1) = Some (Dir es) ->
  exists fs2,
    populate_distgit_dir __name__ self fs
    = (Raise (OSError EISDIR "Dockerilfe"), fs2) /\
    dir_lookup d (cwd fs2) = Some (File c) /\
    dir_lookup "Dockerilfe" (cwd fs2) = Some (Dir es) /\
    (forall x, dir_lookup "Dockerfile" (cwd fs2) <> Some (File x)).
Proof.
  intros Hcfg Hne Hsteps Hd Hdst.
  exists (without_dockerfile fs1).
  assert (Hd' : dir_lookup d (cwd (without_dockerfile fs1)) = Some (File c))
    by (by rewrite without_dockerfile_other).
  assert (Hdst' : dir_lookup "Dockerilfe" (cwd (without_dockerfile fs1))
                  = Some (Dir es))
    by (by rewrite without_dockerfile_other).
  repeat split; trivial.
  - rewrite (populate_after_copy _ _ _ _ (dockerfile_configured _ _ Hcfg)
               Hsteps).
    apply bind_run_raise. rewrite (normalize_dockerfile_run _ _ _ Hcfg Hne).
    unfold os_rename. rewrite (rename_source_entry _ _ _ Hd'), Hdst'.
    case_bool_decide as Hsame; [|done].
    injection Hsame as ->. congruence.
  - intros x. apply without_dockerfile_no_file.
Qed.

Lemma populate_no_override_run :
  __name__ <> "__main__" ->
  is_Some (content_source (config self)) ->
  content_source (config self) ≫= dockerfile = None \/
  content_source (config self) ≫= dockerfile = Some "Dockerfile" ->
  populate_distgit_dir __name__ self fs
  = (selective_clean ;; copy_source self) fs.
Proof.
  intros Hname Hsrc Hcfg. rewrite (populate_with_source _ _ _ Hsrc).
  assert (Hnorm : forall fs2, normalize_dockerfile self fs2 = (Ok tt, fs2))
    by (intros fs2; unfold normalize_dockerfile;
        by destruct Hcfg as [-> | ->]).
  assert (Hstray : forall fs2, stray_cleanup __name__ fs2 = (Ok tt, fs2))
    by (intros fs2; unfold stray_cleanup; rewrite bind_run; simpl;
        by apply stray_loop_imported).
  rewrite !bind_run. destruct (selective_clean fs) as [[[]|e] fs1]; [|done].
  rewrite !bind_run. destruct (copy_source self fs1) as [[[]|e] fs2]; [|done].
  by rewrite bind_run, Hnorm, Hstray.
Qed.

(** With no build file configured, or with ["Dockerfile"] itself, an
    imported module's populate is the selective clean followed by the
    copy: what the source brings under the name [Dockerfile] is the build
    file, and nothing is renamed or removed after the copy. *)
Theorem populate_without_override :
  __name__ <> "__main__" ->
  is_Some (content_source (config self)) ->
  content_source (config self) ≫= dockerfile = None \/
  content_source (config self) ≫= dockerfile = Some "Dockerfile" ->
  populate_distgit_dir __name__ self fs
  = (selective_clean ;; copy_source self) fs.
Proof. apply populate_no_override_run. Qed.

End PopulateFailures.

(** ** What populate leaves alone *)

Lemma keeps_bind {A B : Type} D n (m : M A) (f : A -> M B) :
  keeps D n m -> (forall a, keeps D n (f a)) -> keeps D n (m ≫= f).
Proof.
  intros Hm Hf fs r fs' HD Hrun. rewrite bind_run in Hrun.
  destruct (m fs) as [[a|e] fs1] eqn:Hm1.
  - destruct (Hm _ _ _ HD Hm1) as [H1 H2].
    destruct (Hf a _ _ _ H2 Hrun) as [H3 H4]. split; [congruence|done].
  - injection Hrun as _ <-. by apply (Hm _ _ _ HD Hm1).
Qed.

Lemma keeps_pass D n : keeps D n pass.
Proof. intros fs r fs' HD Hrun. by injection Hrun as _ <-. Qed.

Lemma keeps_clean D n : protected n = true -> keeps D n selective_clean.
Proof.
  intros Hn fs r fs' HD Hrun. unfold selective_clean in Hrun.
  rewrite bind_run in Hrun. simpl in Hrun.
  destruct (clean_loop_keeps _ _ _ _ Hrun) as (Hdirs & _ & Hprot & _).
  split; [by apply Hprot | congruence].
Qed.

Lemma copy_entry_other n m x d :
  n <> m -> dir_lookup n (snd (copy_entry m x d)) = dir_lookup n d.
Proof.
  intros Hne. destruct x as [c|sub]; simpl.
  - destruct (dir_lookup m d) as [[?|?]|]; simpl; trivial;
      by apply dir_lookup_insert_ne.
  - destruct (dir_lookup m d) as [[?|?]|]; simpl; trivial;
      match goal with
      | |- context [let (_, _) := ?t in _] => destruct t
      end; simpl; by apply dir_lookup_insert_ne.
Qed.

Lemma copy_entries_other n es :
  forall d, ~ In n (List.map fst es) ->
            dir_lookup n (snd (copy_entries es d)) = dir_lookup n d.
Proof.
  induction es as [|[m x] es IH]; intros d Hn; simpl; [done|].
  simpl in Hn.
  assert (Hm : n <> m) by (intros ->; apply Hn; by left).
  assert (Hes : ~ In n (List.map fst es)) by (intros H; apply Hn; by right).
  destruct (copy_entry m x d) as [[[]|e] d1] eqn:Hcopy.
  - rewrite (IH d1 Hes). by rewrite <- (copy_entry_other n m x d Hm), Hcopy.
  - simpl. by rewrite <- (copy_entry_other n m x d Hm), Hcopy.
Qed.

(** What [source_path] returns or raises depends on the directories
    outside of the distgit directory only. *)
Lemma source_path_dirs_only self fs fs1 :
  dirs fs1 = dirs fs ->
  fst (source_path self fs1) = fst (source_path self fs).
Proof.
  intros Hdirs. unfold source_path.
  destruct (content_source (config self) ≫= alias) as [a|]; [|done].
  destruct (source_alias (runtime self) !! a) as [root|]; [|done].
  rewrite !bind_run. unfold assert_dir. rewrite !bind_run.
  unfold os_path_isdir. rewrite Hdirs. by destruct (bool_decide _).
Qed.

Lemma keeps_copy self fs n :
  (forall p es, fst (source_path self fs) = Ok p -> dirs fs p = Some es ->
                ~ In n (List.map fst es)) ->
  keeps (dirs fs) n (copy_source self).
Proof.
  intros Hsrc fs1 r fs' HD Hrun. unfold copy_source in Hrun.
  rewrite bind_run in Hrun.
  assert (Hst := source_path_state self fs1).
  assert (Hval := source_path_dirs_only self fs fs1 HD).
  destruct (source_path self fs1) as [[p|e] fs2]; simpl in Hst, Hval;
    subst fs2.
  - unfold recursive_overwrite in Hrun. rewrite HD in Hrun.
    destruct (dirs fs p) as [es|] eqn:Hp.
    + destruct (copy_entries es (cwd fs1)) as [r1 d'] eqn:Hcopy.
      injection Hrun as _ <-. simpl. split; [|done].
      rewrite <- (copy_entries_other n es (cwd fs1)); [by rewrite Hcopy|].
      by apply (Hsrc p).
    + by injection Hrun as _ <-.
  - by injection Hrun as _ <-.
Qed.

Lemma keeps_normalize self D n :
  n <> "Dockerfile" -> n <> "Dockerilfe" ->
  (forall d root p x,
     content_source (config self) ≫= dockerfile = Some d ->
     rename_source d root = Found p x -> hd_error p <> Some n) ->
  keeps D n (normalize_dockerfile self).
Proof.
  intros Hn1 Hn2 Hcfg fs r fs' HD Hrun.
  destruct (content_source (config self) ≫= dockerfile) as [d|] eqn:Hd.
  - destruct (String.eqb_spec d "Dockerfile") as [->|Hne].
    + unfold normalize_dockerfile in Hrun. rewrite Hd in Hrun.
      by injection Hrun as _ <-.
    + rewrite (normalize_dockerfile_run _ _ _ Hd Hne) in Hrun.
      assert (Hbase := without_dockerfile_other n fs Hn1).
      assert (Hdirs := without_dockerfile_dirs fs).
      unfold os_rename in Hrun.
      destruct (rename_source d (cwd (without_dockerfile fs)))
        as [p x| | | |] eqn:Hsrc;
        try (injection Hrun as _ <-; split; congruence).
      destruct (bool_decide (p = ["Dockerilfe"]));
        [injection Hrun as _ <-; split; congruence|].
      assert (Hmoved :
        dir_lookup n (dir_insert "Dockerilfe" x
                        (path_delete p (cwd (without_dockerfile fs))))
        = dir_lookup n (cwd fs)).
      { rewrite dir_lookup_insert_ne by done.
        rewrite path_delete_other; [done|].
        by apply (Hcfg d _ p x eq_refl Hsrc). }
      destruct x as [c|sub],
        (dir_lookup "Dockerilfe" (cwd (without_dockerfile fs)))
        as [[c1|[|e1 es1]]|];
        injection Hrun as _ <-; simpl; split; congruence.
  - unfold normalize_dockerfile in Hrun. rewrite Hd in Hrun.
    by injection Hrun as _ <-.
Qed.

Lemma stray_loop_dirs __name__ (ns : list string) :
  forall fs r fs',
    for_each ns (stray_entry __name__) fs = (r, fs') -> dirs fs' = dirs fs.
Proof.
  induction ns as [|n0 ns IH]; intros fs r fs' Hrun.
  { by injection Hrun as _ <-. }
  rewrite for_each_cons in Hrun. unfold stray_entry at 1 in Hrun.
  destruct (String.eqb __name__ "__main__"); [|by eapply IH].
  destruct (startswith n0 "Dockerfile."); [|by eapply IH].
  unfold os_remove in Hrun.
  destruct (dir_lookup n0 (cwd fs)) as [[c0|es]|].
  - by rewrite (IH _ _ _ Hrun).
  - by injection Hrun as _ <-.
  - by injection Hrun as _ <-.
Qed.

Lemma keeps_stray __name__ D n :
  startswith n "Dockerfile." = false -> keeps D n (stray_cleanup __name__).
Proof.
  intros Hn fs r fs' HD Hrun. unfold stray_cleanup in Hrun.
  rewrite bind_run in Hrun. simpl in Hrun. split.
  - by apply (stray_loop_others _ _ _ _ _ Hrun).
  - by rewrite (stray_loop_dirs _ _ _ _ _ Hrun).
Qed.

(** A protected name is none of the names the later steps act on. *)
Lemma protected_not_build_file n :
  protected n = true ->
  startswith n "Dockerfile." = false /\
  n <> "Dockerfile" /\ n <> "Dockerilfe".
Proof.
  intros Hp. destruct (protected_true _ Hp) as [Hdot | ->].
  - unfold startswith in Hdot. destruct n as [|c n]; [done|].
    change (String.prefix "." (String c n))
      with (if ascii_dec "." c then String.prefix "" n else false) in Hdot.
    destruct (ascii_dec "." c) as [<-|]; [|done].
    split; [reflexivity | split; discriminate].
  - split; [reflexivity | split; discriminate].
Qed.

(** Whether populate returns or raises, and under whatever module name, a
    hidden entry or [additional-tags] of the distgit directory is left as
    it was when the source directory, as populate finds it after the
    clean, has no entry of that name, and the configured build file is a
    path that stays in the distgit directory and leads neither to that
    entry nor into it. *)
Theorem populate_keeps_protected __name__ self fs r fs' n :
  populate_distgit_dir __name__ self fs = (r, fs') ->
  protected n = true ->
  (forall d root,
     content_source (config self) ≫= dockerfile = Some d ->
     match rename_source d root with
     | Found p _ => hd_error p <> Some n
     | Outside => False
     | _ => True
     end) ->
  (forall fs1 p es,
     selective_clean fs = (Ok tt, fs1) ->
     source_path self fs1 = (Ok p, fs1) ->
     dirs fs1 p = Some es ->
     ~ In n (List.map fst es)) ->
  dir_lookup n (cwd fs') = dir_lookup n (cwd fs).
Proof.
  intros Hrun Hp Hcfg Hsrc.
  destruct (protected_not_build_file _ Hp) as (Hstray & Hn1 & Hn2).
  assert (Hnorm : forall D, keeps D n (normalize_dockerfile self)).
  { intros D. apply keeps_normalize; trivial.
    intros d root p x Hd Hfound. specialize (Hcfg d root Hd).
    by rewrite Hfound in Hcfg. }
  unfold populate_distgit_dir in Hrun.
  destruct (content_source (config self)); [|by injection Hrun as _ <-].
  rewrite bind_run in Hrun.
  destruct (selective_clean fs) as [[[]|e] fs1] eqn:Hclean.
  - destruct (keeps_clean (dirs fs) n Hp fs _ _ eq_refl Hclean)
      as [Hkept Hdirs].
    rewrite <- Hkept.
    assert (Hrest : keeps (dirs fs1) n
              (copy_source self ;; normalize_dockerfile self ;;
               stray_cleanup __name__)).
    { apply keeps_bind.
      - apply keeps_copy. intros p es Hpath Hes.
        apply (Hsrc fs1 p es eq_refl); [|done].
        apply injective_projections; [done|]. apply source_path_state.
      - intros _. apply keeps_bind; [apply Hnorm|]. intros _.
        by apply keeps_stray. }
    by apply (Hrest fs1 r fs' eq_refl Hrun).
  - injection Hrun as _ <-.
    by apply (keeps_clean (dirs fs) n Hp fs _ _ eq_refl Hclean).
Qed.

(** ** The lines of the configuration *)

Lemma rstrip_all_space w : all_space w = true -> rstrip w = "".
Proof.
  induction w as [|c w IH]; simpl; [done|].
  intros H. apply andb_true_iff in H as [Hc Hw].
  by rewrite (IH Hw), Hc.
Qed.

Lemma rstrip_app_space s w :
  all_space w = true -> rstrip (s +:+ w) = rstrip s.
Proof.
  intros Hw. induction s as [|c s IH]; simpl.
  - by apply rstrip_all_space.
  - by rewrite IH.
Qed.

(** The text handed to [yaml.load] does not depend on how the lines of
    [config.yml] end: lines that end in one run of white space (such as
    carriage return and line feed) give the same text as the same lines
    ending in another (such as line feed alone). *)
Theorem config_yml_content_line_endings global_yaml_lines ls w1 w2 :
  all_space w1 = true ->
  all_space w2 = true ->
  config_yml_content global_yaml_lines (List.map (fun l => l +:+ w1) ls)
  = config_yml_content global_yaml_lines (List.map (fun l => l +:+ w2) ls).
Proof.
  intros H1 H2. unfold config_yml_content. f_equal. f_equal.
  rewrite !List.map_map. apply List.map_ext. intros l.
  by rewrite !rstrip_app_space.
Qed.

(** ** Populate on a clone without stray files *)


(** ** The further properties at sample inputs *)

Lemma source_path_ok_inv_witness :
  exists a root,
    content_source (config image_app) ≫= alias = Some a /\
    source_alias (runtime image_app) !! a = Some root /\
    "/src/app"
    = from_option (os_path_join root) root
        (content_source (config image_app) ≫= path) /\
    is_Some (dirs fs_new_file "/src/app") /\
    fs_new_file = fs_new_file.
Proof.
  apply (source_path_ok_inv image_app fs_new_file "/src/app" fs_new_file).
  reflexivity.
Defined.

Lemma source_path_absolute_sub_path_witness :
  source_path (sample_image (Some "app") (Some "/opt/shared") None) fs_shared
  = (Ok "/opt/shared", fs_shared).
Proof.
  apply (source_path_absolute_sub_path
           (sample_image (Some "app") (Some "/opt/shared") None) fs_shared
           "app" "/src/app" "/opt/shared").
  - reflexivity.
  - reflexivity.
  - reflexivity.
  - reflexivity.
  - simpl. by eexists.
Defined.

Lemma source_path_under_root_witness :
  String.prefix "/src/app" "/src/app/sub" = true.
Proof.
  apply (source_path_under_root
           (sample_image (Some "app") (Some "sub") None) fs_sub
           "app" "/src/app" "/src/app/sub" fs_sub).
  - reflexivity.
  - reflexivity.
  - intros sub [= <-]. reflexivity.
  - reflexivity.
Defined.

Lemma selective_clean_keeps_protected_witness :
  dir_lookup "additional-tags"
    [(".git", git_meta); ("additional-tags", File "latest")]
  = dir_lookup "additional-tags" (cwd fs_dirs_only).
Proof.
  apply (selective_clean_keeps_protected fs_dirs_only (Ok tt)
           (set_cwd [(".git", git_meta); ("additional-tags", File "latest")]
              fs_dirs_only) "additional-tags").
  - reflexivity.
  - reflexivity.
Defined.

Lemma selective_clean_removes_directories_only_witness :
  sublist [(".git", git_meta); ("additional-tags", File "latest")]
    (cwd fs_dirs_only) /\
  dirs fs_dirs_only = dirs fs_dirs_only /\
  forall n c,
    dir_lookup n (cwd fs_dirs_only) = Some (File c) ->
    dir_lookup n [(".git", git_meta); ("additional-tags", File "latest")]
    = Some (File c).
Proof.
  apply (selective_clean_removes_directories_only fs_dirs_only (Ok tt)
           (set_cwd [(".git", git_meta); ("additional-tags", File "latest")]
              fs_dirs_only)).
  reflexivity.
Defined.

Lemma fs_dirs_only_wf : wf_dir (cwd fs_dirs_only).
Proof.
  unfold wf_dir. simpl.
  repeat (apply List.NoDup_cons; [simpl; intuition discriminate|]).
  apply List.NoDup_nil.
Defined.

Lemma selective_clean_directories_witness :
  selective_clean fs_dirs_only
  = (Ok tt,
     set_cwd (List.filter (fun e => protected (fst e)) (cwd fs_dirs_only))
       fs_dirs_only).
Proof.
  apply (selective_clean_directories fs_dirs_only).
  - exact fs_dirs_only_wf.
  - intros n x Hin Hn. simpl in Hin.
    destruct Hin as [[= <- <-]|[[= <- <-]|[[= <- <-]|[[= <- <-]|[]]]]];
      try discriminate Hn; by eexists.
Defined.

Lemma stray_cleanup_as_script_witness :
  stray_cleanup "__main__" fs_variants
  = (Ok tt,
     set_cwd (List.filter
                (fun e => negb (startswith (fst e) "Dockerfile."))
                (cwd fs_variants)) fs_variants).
Proof.
  apply (stray_cleanup_as_script fs_variants).
  - unfold wf_dir. simpl.
    repeat (apply List.NoDup_cons; [simpl; intuition discriminate|]).
    apply List.NoDup_nil.
  - intros n x Hin Hn. simpl in Hin.
    destruct Hin as [[= <- <-]|[[= <- <-]|[[= <- <-]|[[= <- <-]|[]]]]];
      try discriminate Hn; by eexists.
Defined.

Lemma populate_cleans_before_resolving_witness :
  populate_distgit_dir "image" (sample_image None None None) fs_dirs_only
  = (Raise (IOError "Can't find source alias in image config: /images/app"),
     set_cwd [(".git", git_meta); ("additional-tags", File "latest")]
       fs_dirs_only).
Proof.
  apply (populate_cleans_before_resolving "image"
           (sample_image None None None) fs_dirs_only
           (set_cwd [(".git", git_meta); ("additional-tags", File "latest")]
              fs_dirs_only)
           (IOError "Can't find source alias in image config: /images/app")
           (set_cwd [(".git", git_meta); ("additional-tags", File "latest")]
              fs_dirs_only)).
  - simpl. by eexists.
  - reflexivity.
  - reflexivity.
Defined.

Lemma populate_configured_dockerfile_missing_witness :
  (exists fs2,
     populate_distgit_dir "image" image_rhel fs_plain_dockerfile
     = (Raise (OSError ENOENT "Dockerfile.rhel"), fs2) /\
     dir_lookup "Dockerfile.rhel" (cwd fs2) = None /\
     (forall x, dir_lookup "Dockerfile" (cwd fs2) <> Some (File x)) /\
     (forall n, n <> "Dockerfile" ->
                dir_lookup n (cwd fs2)
                = dir_lookup n [(".git", git_meta);
                                ("Dockerfile", File "FROM scratch")])) /\
  (exists fs2,
     populate_distgit_dir "image"
       (sample_image (Some "app") None (Some "./Dockerfile"))
       fs_plain_dockerfile
     = (Raise (OSError ENOENT "./Dockerfile"), fs2) /\
     dir_lookup "./Dockerfile" (cwd fs2) = None /\
     (forall x, dir_lookup "Dockerfile" (cwd fs2) <> Some (File x)) /\
     (forall n, n <> "Dockerfile" ->
                dir_lookup n (cwd fs2)
                = dir_lookup n [(".git", git_meta);
                                ("Dockerfile", File "FROM scratch")])).
Proof.
  split.
  - apply (populate_configured_dockerfile_missing "image" image_rhel
             fs_plain_dockerfile
             (set_cwd [(".git", git_meta);
                       ("Dockerfile", File "FROM scratch")]
                fs_plain_dockerfile)
             "Dockerfile.rhel").
    + reflexivity.
    + discriminate.
    + vm_compute. reflexivity.
    + vm_compute. reflexivity.
  - apply (populate_configured_dockerfile_missing "image"
             (sample_image (Some "app") None (Some "./Dockerfile"))
             fs_plain_dockerfile
             (set_cwd [(".git", git_meta);
                       ("Dockerfile", File "FROM scratch")]
                fs_plain_dockerfile)
             "./Dockerfile").
    + reflexivity.
    + discriminate.
    + vm_compute. reflexivity.
    + vm_compute. reflexivity.
Defined.

Lemma populate_rename_onto_directory_witness :
  exists fs2,
    populate_distgit_dir "image" image_rhel fs_dockerilfe_dir
    = (Raise (OSError EISDIR "Dockerilfe"), fs2) /\
    dir_lookup "Dockerfile.rhel" (cwd fs2) = Some (File "FROM rhel7") /\
    dir_lookup "Dockerilfe" (cwd fs2) = Some (Dir []) /\
    (forall x, dir_lookup "Dockerfile" (cwd fs2) <> Some (File x)).
Proof.
  apply (populate_rename_onto_directory "image" image_rhel
           fs_dockerilfe_dir
           (set_cwd [(".git", git_meta); ("Dockerfile", File "FROM scratch");
                     ("Dockerfile.rhel", File "FROM rhel7");
                     ("Dockerilfe", Dir [])] fs_dockerilfe_dir)
           "Dockerfile.rhel" "FROM rhel7" []).
  - reflexivity.
  - discriminate.
  - vm_compute. reflexivity.
  - reflexivity.
  - reflexivity.
Defined.

Lemma populate_without_override_witness :
  populate_distgit_dir "image" image_app fs_new_file
  = (selective_clean ;; copy_source image_app) fs_new_file.
Proof.
  apply (populate_without_override "image" image_app fs_new_file).
  - discriminate.
  - simpl. by eexists.
  - left. reflexivity.
Defined.

Lemma populate_keeps_protected_witness :
  dir_lookup ".git"
    [(".git", git_meta); ("Dockerfile.centos", File "FROM centos7");
     ("Dockerilfe", File "FROM rhel7")]
  = dir_lookup ".git" (cwd fs_rhel).
Proof.
  apply (populate_keeps_protected "image" image_rhel fs_rhel (Ok tt)
           (set_cwd [(".git", git_meta);
                     ("Dockerfile.centos", File "FROM centos7");
                     ("Dockerilfe", File "FROM rhel7")] fs_rhel)
           ".git").
  - vm_compute. reflexivity.
  - reflexivity.
  - intros d root [= <-].
    destruct (rename_source "Dockerfile.rhel" root) as [p x| | | |] eqn:Hsrc;
      trivial.
    + rewrite (rename_source_plain "Dockerfile.rhel" root p x eq_refl Hsrc).
      discriminate.
    + by apply (rename_source_plain_inside "Dockerfile.rhel" root eq_refl
                  eq_refl).
  - intros fs1 p es Hclean Hpath Hes.
    vm_compute in Hclean. injection Hclean as <-.
    vm_compute in Hpath. injection Hpath as <-.
    vm_compute in Hes. injection Hes as <-.
    simpl. intuition discriminate.
Defined.

Lemma config_yml_content_line_endings_witness :
  config_yml_content ["global: true"]
    (List.map (fun l => l +:+ String CR (String LF ""))
       ["repo:"; "  type: rpms"])
  = config_yml_content ["global: true"]
      (List.map (fun l => l +:+ String LF "") ["repo:"; "  type: rpms"]).
Proof.
  apply (config_yml_content_line_endings ["global: true"]
           ["repo:"; "  type: rpms"]
           (String CR (String LF "")) (String LF "")).
  - reflexivity.
  - reflexivity.
Defined.

